(** * cassandra_verify: the nodetool command builder and its result reporter

    A shallow embedding of [plugins/modules/cassandra_verify.py].  Python
    [str] values are Rocq strings whose characters are the code points
    0..255; [int] values are [Z]; the dictionary handed to [exit_json] is a
    finite map from key to value; the one exception the module can raise on
    its own ([TypeError], from [" ".join]) is an explicit result. *)

From Stdlib Require Import ZArith Ascii String List Bool Lia.
From Stdlib Require Import Numbers.DecimalString.
From stdpp Require Import base option gmap strings.

Local Open Scope Z_scope.

(** ** Python values *)

(** The values that reach the module through a [raw] parameter and the
    values stored in the reported dictionary. *)
#[warnings="-register-all"] Inductive py_value : Type :=
| PyNone
| PyBool (b : bool)
| PyInt (z : Z)
| PyStr (s : string)
| PyList (l : list py_value).

(** Exceptions raised by the module's own code. *)
Inductive py_exn : Type :=
| TypeError.

Inductive res (A : Type) : Type :=
| Ok (a : A)
| Raise (e : py_exn).
Arguments Ok {A} a.
Arguments Raise {A} e.

(** An exception aborts what follows it. *)
Global Instance res_bind : MBind res := λ A B k m,
  match m with
  | Ok a => k a
  | Raise e => Raise e
  end.

(** ** String primitives of Python used by the module *)

Module Py.

(** [str(n)] for an [int]: decimal digits, with a leading minus sign for a
    negative number. *)
Definition str_of_int (n : Z) : string :=
  NilZero.string_of_int (Z.to_int n).

(** ["{0}".format(x)] for a parameter that is a [str] or [None]. *)
Definition format_opt (x : option string) : string :=
  match x with
  | Some s => s
  | None => "None"
  end.

(** [c.isspace()] on the code points below 256. *)
Definition isspace (c : ascii) : bool :=
  let n := nat_of_ascii c in
  ((9 <=? n)%nat && (n <=? 13)%nat)
  || ((28 <=? n)%nat && (n <=? 32)%nat)
  || (n =? 133)%nat || (n =? 160)%nat.

Fixpoint lstrip (s : string) : string :=
  match s with
  | EmptyString => EmptyString
  | String c s' => if isspace c then lstrip s' else s
  end.

Fixpoint rstrip (s : string) : string :=
  match s with
  | EmptyString => EmptyString
  | String c s' =>
      match rstrip s' with
      | EmptyString => if isspace c then EmptyString else String c EmptyString
      | r => String c r
      end
  end.

(** [s.strip()] *)
Definition strip (s : string) : string := rstrip (lstrip s).

(** [s.endswith(suffix)] *)
Definition endswith (s suffix : string) : bool :=
  let n := String.length s in
  let k := String.length suffix in
  (k <=? n)%nat && String.eqb (String.substring (n - k) k s) suffix.

(** [sep.join(items)] on a list; a [TypeError] when an item is not a
    [str]. *)
Fixpoint str_items (items : list py_value) : res (list string) :=
  match items with
  | [] => Ok []
  | PyStr s :: rest => l ← str_items rest; Ok (s :: l)
  | _ :: _ => Raise TypeError
  end.

Definition join (sep : string) (items : list py_value) : res string :=
  l ← str_items items; Ok (String.concat sep l).

(** [needle in hay] *)
Fixpoint contains (needle hay : string) : bool :=
  String.prefix needle hay
  || match hay with
     | EmptyString => false
     | String _ hay' => contains needle hay'
     end.

(** truth value of a [str] *)
Definition truthy (s : string) : bool :=
  match s with
  | EmptyString => false
  | String _ _ => true
  end.

End Py.

(** ** Predicates on the characters of a string, used to state the results *)

(** [has_char c s]: the character [c] occurs in [s]. *)
Fixpoint has_char (c : ascii) (s : string) : bool :=
  match s with
  | EmptyString => false
  | String x s' => Ascii.eqb c x || has_char c s'
  end.

(** [all_in allowed s]: every character of [s] occurs in [allowed]. *)
Fixpoint all_in (allowed s : string) : bool :=
  match s with
  | EmptyString => true
  | String x s' => has_char x allowed && all_in allowed s'
  end.

(** [all_space s]: [s] consists of whitespace only. *)
Fixpoint all_space (s : string) : bool :=
  match s with
  | EmptyString => true
  | String x s' => Py.isspace x && all_space s'
  end.

(** [trimmed s t]: [t] is [s] without its leading and trailing whitespace:
    what was cut off on either side is whitespace, and [t] neither begins
    nor ends with a whitespace character. *)
Definition trimmed (s t : string) : Prop :=
  (∃ l r, s = l +:+ t +:+ r ∧ all_space l = true ∧ all_space r = true)
  ∧ (∀ c u, t = String c u → Py.isspace c = false)
  ∧ (∀ c u, t = u +:+ String c "" → Py.isspace c = false).

(** [occurs_apart flag longer hay]: [flag] occurs in [hay] at a place where
    [longer] does not begin.  With [longer] a flag that begins with [flag],
    these are the occurrences of [flag] that are not the beginning of
    [longer]. *)
Fixpoint occurs_apart (flag longer hay : string) : bool :=
  (String.prefix flag hay && negb (String.prefix longer hay))
  || match hay with
     | EmptyString => false
     | String _ hay' => occurs_apart flag longer hay'
     end.

(** [all_str items]: every item of the list is a [str]. *)
Fixpoint all_str (items : list py_value) : bool :=
  match items with
  | [] => true
  | PyStr _ :: rest => all_str rest
  | _ :: _ => false
  end.

(** ** Module parameters *)

(** [module.params] after Ansible applied [argument_spec]: [None] for an
    absent [str] parameter, [7199] for an absent port, [False] for an absent
    [extended], and whatever value was given for the raw [table]. *)
Module Params.
Record t : Type := mk {
  host : option string;
  port : Z;
  password : option string;
  password_file : option string;
  username : option string;
  keyspace : option string;
  table : py_value;
  extended : bool;
  nodetool_path : option string
}.
End Params.

(** ** class NodeToolCmd *)

Record NodeToolCmd : Type := mkNodeToolCmd {
  host : string;
  port : Z;
  password : option string;
  password_file : option string;
  username : option string;
  nodetool_path : option string
}.

Section Environment.

(** [socket.getfqdn()] of the machine the module runs on. *)
Variable getfqdn : string.

(** [module.run_command]: the return code, standard output and standard
    error of the command line. *)
Variable run_command : string → Z * string * string.

(** [NodeToolCmd.__init__] *)
Definition NodeToolCmd_init (params : Params.t) : NodeToolCmd :=
  {| host := match Params.host params with
             | None => getfqdn
             | Some h => h
             end;
     port := Params.port params;
     password := Params.password params;
     password_file := Params.password_file params;
     username := Params.username params;
     nodetool_path := Params.nodetool_path params |}.

(** The assignment to [self.nodetool_path] at the head of [nodetool_cmd]. *)
Definition normalize_path (path : option string) : string :=
  match path with
  | Some p =>
      if (0 <? String.length p)%nat && negb (Py.endswith p "/")
      then p +:+ "/"
      else ""
  | None => ""
  end.

(** The authentication flags appended when a user name is given. *)
Definition auth_flags (self : NodeToolCmd) : string :=
  match username self with
  | Some u =>
      " --username " +:+ u +:+
      match password_file self with
      | Some f => " --password-file " +:+ f
      | None => " --password '" +:+ Py.format_opt (password self) +:+ "'"
      end
  | None => ""
  end.

(** The value of [cmd] that [nodetool_cmd] hands to [execute_command],
    with the object as the method leaves it ([self.nodetool_path] is
    overwritten). *)
Definition nodetool_cmd_line (self : NodeToolCmd) (sub_command : string)
  : NodeToolCmd * string :=
  let path := normalize_path (nodetool_path self) in
  let self' :=
    {| host := host self; port := port self; password := password self;
       password_file := password_file self; username := username self;
       nodetool_path := Some path |} in
  let cmd := path +:+ "nodetool --host " +:+ host self' +:+ " --port "
             +:+ Py.str_of_int (port self') in
  let cmd := cmd +:+ auth_flags self' in
  let cmd := cmd +:+ " " +:+ sub_command in
  (self', cmd).

(** [NodeToolCmd.execute_command] *)
Definition execute_command (cmd : string) : Z * string * string :=
  run_command cmd.

(** [NodeToolCmd.nodetool_cmd] *)
Definition nodetool_cmd (self : NodeToolCmd) (sub_command : string)
  : NodeToolCmd * (Z * string * string) :=
  let '(self', cmd) := nodetool_cmd_line self sub_command in
  (self', execute_command cmd).

(** ** class NodeToolCommand(NodeToolCmd) *)

Record NodeToolCommand : Type := mkNodeToolCommand {
  super : NodeToolCmd;
  keyspace : option string;
  table : py_value;
  extended : bool;
  cmd : string
}.

(** The three rewrites of [cmd] in [NodeToolCommand.__init__]. *)
Definition with_extended (e : bool) (cmd : string) : string :=
  if e then cmd +:+ " -e" else cmd.

Definition with_keyspace (k : option string) (cmd : string) : string :=
  match k with
  | Some ks => cmd +:+ " " +:+ ks
  | None => cmd
  end.

Definition with_table (t : py_value) (cmd : string) : res string :=
  match t with
  | PyNone => Ok cmd
  | PyStr name => Ok (cmd +:+ " " +:+ name)
  | PyList names => joined ← Py.join " " names; Ok (cmd +:+ " " +:+ joined)
  | PyBool _ | PyInt _ => Ok cmd
  end.

(** [NodeToolCommand.__init__] *)
Definition NodeToolCommand_init (params : Params.t) (cmd : string)
  : res NodeToolCommand :=
  let self := NodeToolCmd_init params in
  let cmd := with_extended (Params.extended params) cmd in
  let cmd := with_keyspace (Params.keyspace params) cmd in
  cmd ← with_table (Params.table params) cmd;
  Ok {| super := self;
        keyspace := Params.keyspace params;
        table := Params.table params;
        extended := Params.extended params;
        cmd := cmd |}.

(** [NodeToolCommand.run_command] *)
Definition NodeToolCommand_run_command (self : NodeToolCommand)
  : NodeToolCommand * (Z * string * string) :=
  let '(base, outcome) := nodetool_cmd (super self) (cmd self) in
  ({| super := base; keyspace := keyspace self; table := table self;
      extended := extended self; cmd := cmd self |}, outcome).

(** The command line that [main] runs for the given parameters. *)
Definition main_cmd_line (params : Params.t) : res string :=
  n ← NodeToolCommand_init params "verify";
  Ok (snd (nodetool_cmd_line (super n) (cmd n))).

(** The dictionary [main] passes to [module.exit_json] for the outcome
    [(rc, out, err)] of the command. *)
Definition main_result (rc : Z) (out err : string) : gmap string py_value :=
  let result : gmap string py_value := ∅ in
  let out := Py.strip out in
  let err := Py.strip err in
  let result :=
    if Py.truthy out then <["stdout" := PyStr out]> result else result in
  let result :=
    if Py.truthy err then <["stderr" := PyStr err]> result else result in
  if rc =? 0 then
    let result := <["changed" := PyBool true]> result in
    <["msg" := PyStr "nodetool verify executed successfully"]> result
  else
    let result := <["rc" := PyInt rc]> result in
    let result := <["changed" := PyBool false]> result in
    <["msg" := PyStr "nodetool verify did not execute successfully"]> result.

(** [main] *)
Definition main (params : Params.t) : res (gmap string py_value) :=
  n ← NodeToolCommand_init params "verify";
  let '(_, (rc, out, err)) := NodeToolCommand_run_command n in
  Ok (main_result rc out err).

End Environment.

(** * Strings: append, membership of a character, prefixes and substrings *)

Section StringFacts.

Lemma app_nil_l (s : string) : "" +:+ s = s.
Proof. reflexivity. Qed.

Lemma app_cons (c : ascii) (s t : string) :
  String c s +:+ t = String c (s +:+ t).
Proof. reflexivity. Qed.

Lemma app_nil_r (s : string) : s +:+ "" = s.
Proof. induction s as [|c s IH]; [reflexivity|]. by rewrite app_cons, IH. Qed.

Lemma app_assoc (s t u : string) : (s +:+ t) +:+ u = s +:+ t +:+ u.
Proof.
  induction s as [|c s IH]; [reflexivity|]. by rewrite !app_cons, IH.
Qed.

Lemma has_char_app c s t : has_char c (s +:+ t) = has_char c s || has_char c t.
Proof.
  induction s as [|x s IH]; [reflexivity|].
  rewrite app_cons. cbn [has_char]. by rewrite IH, orb_assoc.
Qed.

Lemma prefix_nil_l (h : string) : String.prefix "" h = true.
Proof. by destruct h. Qed.

Lemma prefix_cons_nil (a : ascii) (n : string) :
  String.prefix (String a n) "" = false.
Proof. reflexivity. Qed.

Lemma prefix_cons_cons (a b : ascii) (n h : string) :
  String.prefix (String a n) (String b h)
  = if Ascii.eqb a b then String.prefix n h else false.
Proof.
  cbn [String.prefix]. destruct (ascii_dec a b) as [->|Hne].
  - by rewrite Ascii.eqb_refl.
  - apply Ascii.eqb_neq in Hne. by rewrite Hne.
Qed.

Lemma prefix_app_r (n h t : string) :
  String.prefix n h = true → String.prefix n (h +:+ t) = true.
Proof.
  revert n. induction h as [|b h IH]; intros [|a n] Hp.
  - apply prefix_nil_l.
  - by rewrite prefix_cons_nil in Hp.
  - apply prefix_nil_l.
  - rewrite app_cons, prefix_cons_cons. rewrite prefix_cons_cons in Hp.
    destruct (Ascii.eqb a b); [by apply IH|done].
Qed.

Lemma prefix_self_app (n t : string) : String.prefix n (n +:+ t) = true.
Proof.
  induction n as [|a n IH]; [apply prefix_nil_l|].
  by rewrite app_cons, prefix_cons_cons, Ascii.eqb_refl.
Qed.

Lemma prefix_inv (n h : string) :
  String.prefix n h = true → ∃ t, h = n +:+ t.
Proof.
  revert n. induction h as [|b h IH]; intros [|a n] Hp.
  - by exists "".
  - by rewrite prefix_cons_nil in Hp.
  - by exists (String b h).
  - rewrite prefix_cons_cons in Hp.
    destruct (Ascii.eqb_spec a b) as [->|]; [|done].
    destruct (IH _ Hp) as [t ->]. by exists t.
Qed.

(** A prefix that lacks the character [c] ends before the first [c]. *)
Lemma prefix_sep (c : ascii) (n a b : string) :
  has_char c n = false →
  String.prefix n (a +:+ String c b) = String.prefix n a.
Proof.
  revert n. induction a as [|x a IH]; intros [|y n] Hc.
  - reflexivity.
  - rewrite app_nil_l, prefix_cons_cons, prefix_cons_nil.
    cbn [has_char] in Hc. apply orb_false_elim in Hc as [Hc _].
    rewrite Ascii.eqb_sym in Hc. by rewrite Hc.
  - by rewrite !prefix_nil_l.
  - rewrite app_cons, !prefix_cons_cons.
    cbn [has_char] in Hc. apply orb_false_elim in Hc as [_ Hc].
    by rewrite IH.
Qed.

Lemma contains_unfold (n h : string) :
  Py.contains n h
  = String.prefix n h
    || match h with
       | EmptyString => false
       | String _ h' => Py.contains n h'
       end.
Proof. by destruct h. Qed.

Lemma contains_nil_l (h : string) : Py.contains "" h = true.
Proof. by rewrite contains_unfold, prefix_nil_l. Qed.

Lemma contains_app_l (n a h : string) :
  Py.contains n h = true → Py.contains n (a +:+ h) = true.
Proof.
  intros Hc. induction a as [|x a IH]; [done|].
  rewrite app_cons, contains_unfold, IH. apply orb_true_r.
Qed.

Lemma contains_app_r (n h b : string) :
  Py.contains n h = true → Py.contains n (h +:+ b) = true.
Proof.
  induction h as [|x h IH]; rewrite contains_unfold; intros Hc.
  - rewrite orb_false_r in Hc. rewrite contains_unfold.
    by rewrite (prefix_app_r _ "" b Hc).
  - apply orb_true_iff in Hc as [Hp|Hc].
    + by rewrite contains_unfold, (prefix_app_r _ _ b Hp).
    + rewrite app_cons, contains_unfold, (IH Hc). apply orb_true_r.
Qed.

Lemma contains_mid (n a b : string) : Py.contains n (a +:+ n +:+ b) = true.
Proof.
  apply contains_app_l. by rewrite contains_unfold, prefix_self_app.
Qed.

(** [Py.contains] is the substring relation. *)
Lemma contains_spec (n h : string) :
  Py.contains n h = true ↔ ∃ a b, h = a +:+ n +:+ b.
Proof.
  split.
  - induction h as [|x h IH]; rewrite contains_unfold; intros Hc.
    + rewrite orb_false_r in Hc. destruct (prefix_inv _ _ Hc) as [t ->].
      by exists "", t.
    + apply orb_true_iff in Hc as [Hp|Hc].
      * destruct (prefix_inv _ _ Hp) as [t ->]. by exists "", t.
      * destruct (IH Hc) as (a & b & ->). by exists (String x a), b.
  - intros (a & b & ->). apply contains_mid.
Qed.

(** A needle without the character [c] lies on one side of a [c]. *)
Lemma contains_sep (c : ascii) (n a b : string) :
  has_char c n = false →
  Py.contains n (a +:+ String c b) = Py.contains n a || Py.contains n b.
Proof.
  intros Hc. induction a as [|x a IH].
  - rewrite app_nil_l, (contains_unfold n (String c b)).
    rewrite (contains_unfold n ""), orb_false_r.
    by rewrite <-(prefix_sep c n "" b Hc).
  - rewrite app_cons, (contains_unfold n (String x _)), IH.
    rewrite (contains_unfold n (String x a)).
    rewrite <-app_cons, (prefix_sep c n _ b Hc). by rewrite orb_assoc.
Qed.

Lemma has_char_prefix (c : ascii) (n h : string) :
  String.prefix n h = true → has_char c n = true → has_char c h = true.
Proof.
  intros Hp Hn. destruct (prefix_inv _ _ Hp) as [t ->].
  by rewrite has_char_app, Hn.
Qed.

(** A needle with a character that the haystack lacks does not occur. *)
Lemma contains_absent_char (c : ascii) (n h : string) :
  has_char c n = true → has_char c h = false → Py.contains n h = false.
Proof.
  intros Hn Hh. apply not_true_is_false. intros Hc.
  apply contains_spec in Hc as (a & b & ->).
  rewrite !has_char_app, Hn, orb_true_r in Hh. done.
Qed.

End StringFacts.

(** * Whitespace trimming *)

Section Strip.

Lemma lstrip_split (s : string) :
  ∃ l, s = l +:+ Py.lstrip s ∧ all_space l = true.
Proof.
  induction s as [|c s (l & Hs & Hl)]; [by exists ""|].
  cbn [Py.lstrip]. destruct (Py.isspace c) eqn:Hc.
  - exists (String c l). rewrite app_cons, <-Hs. cbn [all_space].
    by rewrite Hc, Hl.
  - by exists "".
Qed.

Lemma lstrip_head (s : string) (c : ascii) (u : string) :
  Py.lstrip s = String c u → Py.isspace c = false.
Proof.
  induction s as [|x s IH]; [done|]. cbn [Py.lstrip].
  destruct (Py.isspace x) eqn:Hx; [done|]. by intros [= <- _].
Qed.

Lemma rstrip_split (s : string) :
  ∃ r, s = Py.rstrip s +:+ r ∧ all_space r = true.
Proof.
  induction s as [|c s (r & Hs & Hr)]; [by exists ""|].
  cbn [Py.rstrip]. destruct (Py.rstrip s) as [|y t] eqn:Ht.
  - rewrite app_nil_l in Hs. subst r.
    destruct (Py.isspace c) eqn:Hc.
    + exists (String c s). cbn [all_space]. by rewrite Hc, Hr.
    + by exists s.
  - exists r. by rewrite app_cons, <-Hs.
Qed.

Lemma rstrip_last (s u : string) (c : ascii) :
  Py.rstrip s = u +:+ String c "" → Py.isspace c = false.
Proof.
  revert u. induction s as [|x s IH]; intros u.
  - by destruct u.
  - cbn [Py.rstrip]. destruct (Py.rstrip s) as [|y t] eqn:Ht.
    + destruct (Py.isspace x) eqn:Hx.
      * by destruct u.
      * destruct u as [|z u]; [by intros [= <-]|].
        rewrite app_cons. intros [= _ Hu]. by destruct u.
    + destruct u as [|z u]; [done|].
      rewrite app_cons. intros [= _ Hu]. by apply (IH u).
Qed.

Lemma strip_trimmed (s : string) : trimmed s (Py.strip s).
Proof.
  unfold Py.strip. split; [|split].
  - destruct (lstrip_split s) as (l & Hs & Hl).
    destruct (rstrip_split (Py.lstrip s)) as (r & Hm & Hr).
    exists l, r. by rewrite <-Hm.
  - intros c u Hu.
    destruct (rstrip_split (Py.lstrip s)) as (r & Hm & _).
    rewrite Hu, app_cons in Hm. by apply lstrip_head in Hm.
  - intros c u. apply rstrip_last.
Qed.

Lemma truthy_false (s : string) : Py.truthy s = false ↔ s = "".
Proof. by destruct s. Qed.

End Strip.

(** * Decimal rendering of the port *)

Section Decimal.

Lemma string_of_uint_digits (d : Decimal.uint) :
  all_in "0123456789" (NilEmpty.string_of_uint d) = true.
Proof. induction d; cbn [NilEmpty.string_of_uint all_in]; by try rewrite IHd. Qed.

Lemma str_of_int_chars (n : Z) : all_in "-0123456789" (Py.str_of_int n) = true.
Proof.
  assert (∀ s, all_in "0123456789" s = true → all_in "-0123456789" s = true)
    as Hweak.
  { induction s as [|x s IH]; [done|]. cbn [all_in].
    intros [Hx Hs]%andb_true_iff. rewrite (IH Hs), andb_true_r.
    cbn [has_char] in *. rewrite Hx. apply orb_true_r. }
  unfold Py.str_of_int. destruct (Z.to_int n) as [d|d]; cbn.
  - destruct d; try apply Hweak, string_of_uint_digits. done.
  - destruct d; try apply Hweak, string_of_uint_digits. done.
Qed.

Lemma all_in_has_char (allowed s : string) (c : ascii) :
  all_in allowed s = true → has_char c allowed = false →
  has_char c s = false.
Proof.
  intros Hs Hc. induction s as [|x s IH]; [done|].
  cbn [all_in has_char] in *. apply andb_true_iff in Hs as [Hx Hs].
  rewrite (IH Hs), orb_false_r. destruct (Ascii.eqb_spec c x) as [->|]; [|done].
  congruence.
Qed.

End Decimal.

(** * The command line *)

Section CommandLine.

(** The command line is the normalised path, the binary with host and
    port, the authentication flags and the sub-command, in this order. *)
Lemma nodetool_cmd_line_eq (self : NodeToolCmd) (sub_command : string) :
  snd (nodetool_cmd_line self sub_command)
  = normalize_path (nodetool_path self) +:+ "nodetool --host " +:+ host self
    +:+ " --port " +:+ Py.str_of_int (port self) +:+ auth_flags self
    +:+ " " +:+ sub_command.
Proof.
  unfold nodetool_cmd_line, auth_flags. cbn [snd host port username
    password_file password]. by rewrite !app_assoc.
Qed.

(** The method leaves the normalised path in the object. *)
Lemma nodetool_cmd_line_path (self : NodeToolCmd) (sub_command : string) :
  nodetool_path (fst (nodetool_cmd_line self sub_command))
  = Some (normalize_path (nodetool_path self)).
Proof. reflexivity. Qed.

Lemma endswith_app_slash (p : string) : Py.endswith (p +:+ "/") "/" = true.
Proof.
  assert (∀ q, String.length (q +:+ "/") = S (String.length q)) as Hlen.
  { induction q as [|x q IH]; [done|]. rewrite app_cons. cbn. by rewrite IH. }
  unfold Py.endswith. rewrite Hlen. cbn [String.length Nat.leb].
  replace (S (String.length p) - 1)%nat with (String.length p) by lia.
  induction p as [|x p IH]; [done|]. by rewrite app_cons.
Qed.

Lemma normalize_path_cases (path : option string) :
  normalize_path path = "" ∨ ∃ p, normalize_path path = p +:+ "/".
Proof.
  destruct path as [p|]; [|by left]. unfold normalize_path.
  destruct (_ && _); [right; by exists p|by left].
Qed.

(** A path that does not end in a separator gets one. *)
Lemma normalize_path_appends (p : string) :
  p ≠ "" → Py.endswith p "/" = false → normalize_path (Some p) = p +:+ "/".
Proof.
  intros Hp He. unfold normalize_path. rewrite He.
  destruct p; [done|reflexivity].
Qed.

(** A path that ends in a separator is replaced by the empty string. *)
Lemma normalize_path_terminated (p : string) :
  Py.endswith p "/" = true → normalize_path (Some p) = "".
Proof.
  intros He. unfold normalize_path. rewrite He. by rewrite andb_false_r.
Qed.

(** Calling the method again on the object it left behind drops the path
    it had normalised. *)
Lemma nodetool_cmd_line_twice (self : NodeToolCmd) (s1 s2 : string) :
  nodetool_path (fst (nodetool_cmd_line (fst (nodetool_cmd_line self s1)) s2))
  = Some "".
Proof.
  rewrite !nodetool_cmd_line_path. f_equal.
  destruct (normalize_path_cases (nodetool_path self)) as [->|[p ->]];
    [done|]. apply normalize_path_terminated, endswith_app_slash.
Qed.

(** What the builder adds around host, path and sub-command carries no
    flag other than [--host] and [--port]: a text without space and
    separator that is not part of the binary name or of these two flags,
    and has a character that no number has, occurs in the command line
    without authentication flags only inside the path, the host or the
    sub-command. *)
Lemma contains_plain_cmd (flag : string) (c : ascii)
    (path host sub : string) (port : Z) :
  has_char " " flag = false → has_char "/" flag = false →
  has_char c flag = true → has_char c "-0123456789" = false →
  Py.contains flag "nodetool" = false →
  Py.contains flag "--host" = false →
  Py.contains flag "--port" = false →
  path = "" ∨ (∃ p, path = p +:+ "/") →
  Py.contains flag (path +:+ "nodetool --host " +:+ host +:+ " --port "
                    +:+ Py.str_of_int port +:+ " " +:+ sub)
  = Py.contains flag path || Py.contains flag host || Py.contains flag sub.
Proof.
  intros Hsp Hsl Hc Hd Hn Hh Hp Hpath.
  assert (Py.contains flag "" = false) as Hnil.
  { apply (contains_absent_char c); done. }
  assert (Py.contains flag (Py.str_of_int port) = false) as Hport.
  { apply (contains_absent_char c); [done|].
    by apply (all_in_has_char "-0123456789"), Hd; apply str_of_int_chars. }
  assert (Py.contains flag ("nodetool --host " +:+ host +:+ " --port "
                    +:+ Py.str_of_int port +:+ " " +:+ sub)
          = Py.contains flag host || Py.contains flag sub) as Hrest.
  { change (Py.contains flag
      ("nodetool" +:+ String " " ("--host" +:+ String " " (host +:+
         String " " ("--port" +:+ String " " (Py.str_of_int port +:+
           String " " sub)))))
      = Py.contains flag host || Py.contains flag sub).
    rewrite !contains_sep by done. by rewrite Hn, Hh, Hp, Hport. }
  destruct Hpath as [->|[p ->]].
  - by rewrite app_nil_l, Hnil, Hrest.
  - rewrite app_assoc.
    change ("/" +:+ "nodetool --host " +:+ ?x)
      with (String "/" ("nodetool --host " +:+ x)).
    rewrite !contains_sep by done. by rewrite Hnil, orb_false_r, Hrest, orb_assoc.
Qed.

End CommandLine.

(** * The reported result *)

Section Result.

(** [main] builds the sub-command, runs the command line and reports the
    outcome; it raises only what [NodeToolCommand.__init__] raises. *)
Lemma main_unfold (fq : string) (run : string → Z * string * string)
    (params : Params.t) :
  main fq run params
  = n ← NodeToolCommand_init fq params "verify";
    let '(rc, out, err) := run (snd (nodetool_cmd_line (super n) (cmd n))) in
    Ok (main_result rc out err).
Proof.
  unfold main, NodeToolCommand_run_command, nodetool_cmd, execute_command.
  destruct (NodeToolCommand_init fq params "verify") as [n|e]; [|done].
  cbn [mbind res_bind]. destruct (nodetool_cmd_line (super n) (cmd n)).
  cbn [snd]. by destruct (run _) as [[rc out] err].
Qed.

(** C1. Whatever the command returned, the reported result has
    [changed = True] and the success message exactly when the return code
    is 0; for any other return code it has [changed = False], the failure
    message and the return code under [rc]; the key [rc] is present
    exactly when the return code is not 0. *)
Theorem main_result_changed_iff_rc_zero (rc : Z) (out err : string) :
  let result := main_result rc out err in
  (rc = 0 ↔
     result !! "changed" = Some (PyBool true)
     ∧ result !! "msg" = Some (PyStr "nodetool verify executed successfully"))
  ∧ (rc ≠ 0 →
     result !! "changed" = Some (PyBool false)
     ∧ result !! "msg"
       = Some (PyStr "nodetool verify did not execute successfully")
     ∧ result !! "rc" = Some (PyInt rc))
  ∧ (is_Some (result !! "rc") ↔ rc ≠ 0).
Proof.
  unfold main_result. cbn zeta.
  destruct (Z.eqb_spec rc 0) as [->|Hrc];
    destruct (Py.truthy (Py.strip out)), (Py.truthy (Py.strip err));
    simplify_map_eq; (split; [|split]);
    try (split; [done|]); try (split; [|done]); try done;
    try (intros [[=] _]); try (intros [x [=]]); try (intros _; by eexists).
Qed.

Lemma main_result_changed_iff_rc_zero_witness :
  (1 ≠ 0)
  ∧ main_result 1 "" "corrupt" !! "changed" = Some (PyBool false)
  ∧ main_result 1 "" "corrupt" !! "msg"
    = Some (PyStr "nodetool verify did not execute successfully")
  ∧ main_result 1 "" "corrupt" !! "rc" = Some (PyInt 1).
Proof.
  split; [lia|].
  apply (main_result_changed_iff_rc_zero 1 "" "corrupt"). lia.
Defined.

(** C7. The reported [stdout] and [stderr] are the captured streams
    without their leading and trailing whitespace, and a stream that is
    empty after trimming has no key in the reported dictionary. *)
Theorem main_result_streams_trimmed (rc : Z) (out err : string) :
  let result := main_result rc out err in
  trimmed out (Py.strip out)
  ∧ trimmed err (Py.strip err)
  ∧ result !! "stdout"
    = (if decide (Py.strip out = "") then None
       else Some (PyStr (Py.strip out)))
  ∧ result !! "stderr"
    = (if decide (Py.strip err = "") then None
       else Some (PyStr (Py.strip err))).
Proof.
  cbn zeta. split; [apply strip_trimmed|]. split; [apply strip_trimmed|].
  unfold main_result.
  destruct (Py.strip out) as [|x o], (Py.strip err) as [|y e];
    destruct (rc =? 0); cbn [Py.truthy]; simplify_map_eq;
    repeat case_decide; done.
Qed.

(** The two outcomes the specification lists. *)
Example main_result_ok :
  main_result 0 "OK" ""
  = {[ "changed" := PyBool true;
       "msg" := PyStr "nodetool verify executed successfully";
       "stdout" := PyStr "OK" ]}.
Proof. by vm_compute. Qed.

Example main_result_corrupt :
  main_result 1 "" "corrupt"
  = {[ "changed" := PyBool false; "rc" := PyInt 1;
       "msg" := PyStr "nodetool verify did not execute successfully";
       "stderr" := PyStr "corrupt" ]}.
Proof. by vm_compute. Qed.

End Result.

(** * The path prefix of the binary *)

Section PathPrefix.

(** C5. With [nodetool_path] unset or empty the command line begins with
    the bare binary name: nothing stands before [nodetool]. *)
Theorem unset_path_cmd_begins_with_nodetool
    (self : NodeToolCmd) (sub_command : string) :
  nodetool_path self = None ∨ nodetool_path self = Some "" →
  snd (nodetool_cmd_line self sub_command)
  = "nodetool --host " +:+ host self +:+ " --port "
    +:+ Py.str_of_int (port self) +:+ auth_flags self
    +:+ " " +:+ sub_command.
Proof.
  intros Hpath. rewrite nodetool_cmd_line_eq.
  by destruct Hpath as [-> | ->].
Qed.

Lemma unset_path_cmd_begins_with_nodetool_witness :
  snd (nodetool_cmd_line
         (mkNodeToolCmd "node1" 7199 None None None None) "verify")
  = "nodetool --host node1 --port 7199 verify".
Proof.
  exact (unset_path_cmd_begins_with_nodetool
           (mkNodeToolCmd "node1" 7199 None None None None) "verify"
           (or_introl eq_refl)).
Defined.

(** X12. A non-empty path without a final separator is followed by exactly one
    separator and the binary name. *)
Lemma open_path_gets_separator (self : NodeToolCmd) (sub_command p : string) :
  nodetool_path self = Some p → p ≠ "" → Py.endswith p "/" = false →
  snd (nodetool_cmd_line self sub_command)
  = p +:+ "/nodetool --host " +:+ host self +:+ " --port "
    +:+ Py.str_of_int (port self) +:+ auth_flags self
    +:+ " " +:+ sub_command.
Proof.
  intros Hpath Hp He. rewrite nodetool_cmd_line_eq, Hpath.
  rewrite normalize_path_appends by done. by rewrite app_assoc.
Qed.

(** X13. A path that already ends in a separator does not reach the command
    line at all. *)
Lemma terminated_path_dropped (self : NodeToolCmd) (sub_command p : string) :
  nodetool_path self = Some p → Py.endswith p "/" = true →
  snd (nodetool_cmd_line self sub_command)
  = "nodetool --host " +:+ host self +:+ " --port "
    +:+ Py.str_of_int (port self) +:+ auth_flags self
    +:+ " " +:+ sub_command.
Proof.
  intros Hpath He. rewrite nodetool_cmd_line_eq, Hpath.
  by rewrite normalize_path_terminated.
Qed.

(** C4. The directory [/usr/bin] is joined to the binary with one
    separator, but the same directory written [/usr/bin/] is discarded:
    the command line then names the bare binary, not [/usr/bin/nodetool]. *)
Theorem terminated_path_discarded :
  main_cmd_line "node1"
    (Params.mk None 7199 None None None None PyNone false (Some "/usr/bin"))
  = Ok "/usr/bin/nodetool --host node1 --port 7199 verify"
  ∧ main_cmd_line "node1"
      (Params.mk None 7199 None None None None PyNone false (Some "/usr/bin/"))
    = Ok "nodetool --host node1 --port 7199 verify".
Proof. split; reflexivity. Qed.

End PathPrefix.

(** * The sub-command *)

Section SubCommand.

Lemma str_items_names (names : list string) :
  Py.str_items (PyStr <$> names) = Ok names.
Proof.
  induction names as [|x names IH]; [done|].
  cbn [fmap list_fmap Py.str_items]. fold (fmap (M:=list) PyStr names).
  by rewrite IH.
Qed.

(** A list of table names is appended joined by single spaces, in the
    order of the list. *)
Lemma with_table_names (names : list string) (cmd : string) :
  with_table (PyList (PyStr <$> names)) cmd
  = Ok (cmd +:+ " " +:+ String.concat " " names).
Proof. unfold with_table, Py.join. by rewrite str_items_names. Qed.

(** A list with an item that is not a string raises. *)
Example with_table_not_str :
  with_table (PyList [PyStr "t1"; PyInt 2]) "verify" = Raise TypeError.
Proof. reflexivity. Qed.

(** C3. For a table parameter that is the list of the names [a], [b] and
    [c], the sub-command is what precedes the tables followed by
    [" a b c"]: one space before each name, the names in the order given,
    each as often as it is listed, and nothing after the last one. *)
Theorem table_list_space_joined
    (fq : string) (params : Params.t) (cmd0 a b c : string) :
  Params.table params = PyList [PyStr a; PyStr b; PyStr c] →
  ∃ n, NodeToolCommand_init fq params cmd0 = Ok n
       ∧ cmd n
         = with_keyspace (Params.keyspace params)
             (with_extended (Params.extended params) cmd0)
           +:+ " " +:+ a +:+ " " +:+ b +:+ " " +:+ c
       ∧ (Params.extended params = false → Params.keyspace params = None →
          cmd n = cmd0 +:+ " " +:+ a +:+ " " +:+ b +:+ " " +:+ c).
Proof.
  intros Ht. unfold NodeToolCommand_init. rewrite Ht.
  rewrite (with_table_names [a; b; c]). cbn [mbind res_bind String.concat].
  eexists. split; [reflexivity|]. cbn [cmd]. split; [done|].
  by intros -> ->.
Qed.

Lemma table_list_space_joined_witness :
  ∃ n, NodeToolCommand_init "node1"
         (Params.mk None 7199 None None None None
            (PyList [PyStr "t2"; PyStr "t1"; PyStr "t2"]) false None)
         "verify" = Ok n
       ∧ cmd n = "verify t2 t1 t2".
Proof.
  destruct (table_list_space_joined "node1"
              (Params.mk None 7199 None None None None
                 (PyList [PyStr "t2"; PyStr "t1"; PyStr "t2"]) false None)
              "verify" "t2" "t1" "t2" eq_refl) as (n & Hn & _ & Hcmd).
  exists n. split; [exact Hn|]. exact (Hcmd eq_refl eq_refl).
Defined.

End SubCommand.

(** * Host and port *)

Section Host.

(** C8, as the code has it. An unset host is replaced by the local
    fully-qualified domain name when the object is created, before any
    command is assembled; a host that is given is used as it is, the empty
    string included.  The command line always contains
    [--host <host> --port <port>] for that host, which is non-empty
    whenever the given host, or else the domain name, is. *)
Theorem host_falls_back_to_fqdn
    (fq : string) (params : Params.t) (sub_command : string) :
  let self := NodeToolCmd_init fq params in
  (Params.host params = None → host self = fq)
  ∧ (∀ h, Params.host params = Some h → host self = h)
  ∧ Py.contains
      ("--host " +:+ host self +:+ " --port " +:+ Py.str_of_int (port self))
      (snd (nodetool_cmd_line self sub_command)) = true
  ∧ (Params.host params ≠ Some "" → fq ≠ "" → host self ≠ "").
Proof.
  cbn zeta. split; [|split; [|split]].
  - unfold NodeToolCmd_init. cbn [host]. by intros ->.
  - unfold NodeToolCmd_init. cbn [host]. by intros h ->.
  - apply contains_spec.
    exists (normalize_path (Params.nodetool_path params) +:+ "nodetool "),
      (auth_flags (NodeToolCmd_init fq params) +:+ " " +:+ sub_command).
    rewrite nodetool_cmd_line_eq, !app_assoc. reflexivity.
  - unfold NodeToolCmd_init. cbn [host].
    destruct (Params.host params) as [h|]; [|done].
    intros Hh _ ->. by apply Hh.
Qed.

Lemma host_falls_back_to_fqdn_witness :
  host (NodeToolCmd_init "node1.example.com"
          (Params.mk None 7199 None None None None PyNone false None))
  = "node1.example.com".
Proof.
  destruct (host_falls_back_to_fqdn "node1.example.com"
              (Params.mk None 7199 None None None None PyNone false None)
              "verify") as (Hunset & _).
  exact (Hunset eq_refl).
Defined.

(** C8 as stated fails: the empty host is a host that was given, so it is
    kept, and the command line is assembled with an empty host. *)
Lemma empty_host_kept :
  Params.host (Params.mk (Some "") 7199 None None None None PyNone false None)
  = Some ""
  ∧ host (NodeToolCmd_init "node1.example.com"
            (Params.mk (Some "") 7199 None None None None PyNone false None))
    = ""
  ∧ main_cmd_line "node1.example.com"
      (Params.mk (Some "") 7199 None None None None PyNone false None)
    = Ok "nodetool --host  --port 7199 verify".
Proof. repeat split. Qed.

End Host.

(** * Authentication flags *)

Section Authentication.

Lemma occurs_apart_unfold (flag longer hay : string) :
  occurs_apart flag longer hay
  = (String.prefix flag hay && negb (String.prefix longer hay))
    || match hay with
       | EmptyString => false
       | String _ hay' => occurs_apart flag longer hay'
       end.
Proof. by destruct hay. Qed.

(** An occurrence apart from [longer] is an occurrence. *)
Lemma occurs_apart_contains (flag longer hay : string) :
  occurs_apart flag longer hay = true → Py.contains flag hay = true.
Proof.
  induction hay as [|x hay IH]; rewrite occurs_apart_unfold, contains_unfold.
  - rewrite !orb_false_r. by intros [-> _]%andb_true_iff.
  - intros [[-> _]%andb_true_iff|Hc]%orb_true_iff; [done|].
    rewrite (IH Hc). apply orb_true_r.
Qed.

(** When neither text has the character [c], an occurrence lies on one side
    of a [c]. *)
Lemma occurs_apart_sep (c : ascii) (flag longer a b : string) :
  has_char c flag = false → has_char c longer = false →
  occurs_apart flag longer (a +:+ String c b)
  = occurs_apart flag longer a || occurs_apart flag longer b.
Proof.
  intros Hf Hl. induction a as [|x a IH].
  - rewrite app_nil_l, (occurs_apart_unfold _ _ (String c b)).
    rewrite (occurs_apart_unfold _ _ ""), orb_false_r.
    by rewrite <-(prefix_sep c flag "" b Hf), <-(prefix_sep c longer "" b Hl).
  - rewrite app_cons, (occurs_apart_unfold _ _ (String x _)), IH.
    rewrite (occurs_apart_unfold _ _ (String x a)).
    rewrite <-app_cons, (prefix_sep c flag _ b Hf), (prefix_sep c longer _ b Hl).
    by rewrite orb_assoc.
Qed.

(** C2, as the code has it. With a user name and a password file the
    command line is the prefix, [--username <user>],
    [--password-file <file>] and the sub-command, whatever the password:
    it contains the password-file flag followed by the file, and it
    contains [--password] elsewhere than at the beginning of
    [--password-file] exactly when the path, the host, the user name, the
    file or the sub-command does. *)
Theorem password_file_takes_precedence
    (self : NodeToolCmd) (sub_command u f : string) :
  username self = Some u → password_file self = Some f →
  let cmd := snd (nodetool_cmd_line self sub_command) in
  let password_flag := occurs_apart "--password" "--password-file" in
  cmd = normalize_path (nodetool_path self) +:+ "nodetool --host "
        +:+ host self +:+ " --port " +:+ Py.str_of_int (port self)
        +:+ " --username " +:+ u +:+ " --password-file " +:+ f
        +:+ " " +:+ sub_command
  ∧ Py.contains ("--password-file " +:+ f) cmd = true
  ∧ password_flag cmd
    = password_flag (normalize_path (nodetool_path self))
      || password_flag (host self) || password_flag u || password_flag f
      || password_flag sub_command.
Proof.
  intros Hu Hf. cbn zeta.
  assert (snd (nodetool_cmd_line self sub_command)
          = normalize_path (nodetool_path self) +:+ "nodetool --host "
            +:+ host self +:+ " --port " +:+ Py.str_of_int (port self)
            +:+ " --username " +:+ u +:+ " --password-file " +:+ f
            +:+ " " +:+ sub_command) as ->.
  { rewrite nodetool_cmd_line_eq. unfold auth_flags. rewrite Hu, Hf.
    by rewrite !app_assoc. }
  split; [reflexivity|]. split.
  - apply contains_spec.
    exists (normalize_path (nodetool_path self) +:+ "nodetool --host "
            +:+ host self +:+ " --port " +:+ Py.str_of_int (port self)
            +:+ " --username " +:+ u +:+ " "), (" " +:+ sub_command).
    by rewrite !app_assoc.
  - assert (occurs_apart "--password" "--password-file"
              (Py.str_of_int (port self)) = false) as Hport.
    { apply not_true_is_false. intros Ho%occurs_apart_contains.
      rewrite (contains_absent_char "w") in Ho; [done|done|].
      by apply (all_in_has_char "-0123456789"); [apply str_of_int_chars|]. }
    assert (occurs_apart "--password" "--password-file"
              ("nodetool --host " +:+ host self +:+ " --port "
               +:+ Py.str_of_int (port self) +:+ " --username " +:+ u
               +:+ " --password-file " +:+ f +:+ " " +:+ sub_command)
            = occurs_apart "--password" "--password-file" (host self)
              || occurs_apart "--password" "--password-file" u
              || occurs_apart "--password" "--password-file" f
              || occurs_apart "--password" "--password-file" sub_command)
      as Hrest.
    { change (occurs_apart "--password" "--password-file"
        ("nodetool" +:+ String " " ("--host" +:+ String " " (host self +:+
           String " " ("--port" +:+ String " " (Py.str_of_int (port self) +:+
             String " " ("--username" +:+ String " " (u +:+
               String " " ("--password-file" +:+ String " " (f +:+
                 String " " sub_command)))))))))
        = occurs_apart "--password" "--password-file" (host self)
          || occurs_apart "--password" "--password-file" u
          || occurs_apart "--password" "--password-file" f
          || occurs_apart "--password" "--password-file" sub_command).
      rewrite !occurs_apart_sep by done. rewrite Hport.
      change (occurs_apart "--password" "--password-file" "nodetool") with false.
      change (occurs_apart "--password" "--password-file" "--host") with false.
      change (occurs_apart "--password" "--password-file" "--port") with false.
      change (occurs_apart "--password" "--password-file" "--username")
        with false.
      change (occurs_apart "--password" "--password-file" "--password-file")
        with false.
      cbn [orb]. by rewrite !orb_assoc. }
    destruct (normalize_path_cases (nodetool_path self)) as [->|[p ->]].
    + by rewrite app_nil_l, Hrest.
    + rewrite app_assoc.
      change ("/" +:+ "nodetool --host " +:+ ?x)
        with (String "/" ("nodetool --host " +:+ x)).
      rewrite !occurs_apart_sep by done. rewrite Hrest.
      change (occurs_apart "--password" "--password-file" "") with false.
      by rewrite orb_false_r, !orb_assoc.
Qed.

Lemma password_file_takes_precedence_witness :
  Py.contains "--password-file /etc/cassandra/jmx.pw"
    (snd (nodetool_cmd_line
            (mkNodeToolCmd "node1" 7199 (Some "secret")
               (Some "/etc/cassandra/jmx.pw") (Some "cassandra") None)
            "verify")) = true
  ∧ occurs_apart "--password" "--password-file"
      (snd (nodetool_cmd_line
              (mkNodeToolCmd "node1" 7199 (Some "secret")
                 (Some "/etc/cassandra/jmx.pw") (Some "cassandra") None)
              "verify")) = false.
Proof.
  destruct (password_file_takes_precedence
              (mkNodeToolCmd "node1" 7199 (Some "secret")
                 (Some "/etc/cassandra/jmx.pw") (Some "cassandra") None)
              "verify" "cassandra" "/etc/cassandra/jmx.pw" eq_refl eq_refl)
    as (_ & Hfile & Hflag).
  split; [exact Hfile|]. cbn zeta in Hflag. rewrite Hflag. reflexivity.
Defined.

(** C2 as stated fails: a keyspace is passed on as it is given, and the
    keyspace [--password] puts a [--password] flag of its own on the
    command line, after the password-file flag and apart from it. *)
Lemma password_flag_from_keyspace :
  let params := Params.mk None 7199 (Some "secret")
                  (Some "/etc/cassandra/jmx.pw") (Some "cassandra")
                  (Some "--password") PyNone false None in
  Params.username params = Some "cassandra"
  ∧ Params.password_file params = Some "/etc/cassandra/jmx.pw"
  ∧ main_cmd_line "node1" params
    = Ok "nodetool --host node1 --port 7199 --username cassandra --password-file /etc/cassandra/jmx.pw verify --password"
  ∧ Py.endswith
      "nodetool --host node1 --port 7199 --username cassandra --password-file /etc/cassandra/jmx.pw verify --password"
      " --password" = true
  ∧ occurs_apart "--password" "--password-file"
      "nodetool --host node1 --port 7199 --username cassandra --password-file /etc/cassandra/jmx.pw verify --password"
    = true.
Proof. repeat split. Qed.

End Authentication.

Section PasswordFlag.

(** Without a password file the password flag carries the rendering of
    the password, a given one as it is and an unset one as [None],
    between two single quotes. *)
Lemma cmd_line_password (self : NodeToolCmd) (sub_command u : string) :
  username self = Some u → password_file self = None →
  snd (nodetool_cmd_line self sub_command)
  = normalize_path (nodetool_path self) +:+ "nodetool --host "
    +:+ host self +:+ " --port " +:+ Py.str_of_int (port self)
    +:+ " --username " +:+ u
    +:+ " --password '" +:+ Py.format_opt (password self) +:+ "'"
    +:+ " " +:+ sub_command.
Proof.
  intros Hu Hf. rewrite nodetool_cmd_line_eq. unfold auth_flags.
  rewrite Hu, Hf. by rewrite !app_assoc.
Qed.

(** C6. With a user name, no password file and a password, the command
    line contains [--password '<password>']: the password as it was
    given, unescaped, between two single quotes. *)
Theorem password_single_quoted
    (self : NodeToolCmd) (sub_command u pw : string) :
  username self = Some u → password_file self = None →
  password self = Some pw →
  let cmd := snd (nodetool_cmd_line self sub_command) in
  Py.contains ("--password '" +:+ pw +:+ "'") cmd = true
  ∧ cmd = normalize_path (nodetool_path self) +:+ "nodetool --host "
          +:+ host self +:+ " --port " +:+ Py.str_of_int (port self)
          +:+ " --username " +:+ u +:+ " --password '" +:+ pw +:+ "' "
          +:+ sub_command.
Proof.
  intros Hu Hf Hpw. cbn zeta.
  rewrite (cmd_line_password self sub_command u Hu Hf), Hpw.
  cbn [Py.format_opt]. split; [|reflexivity].
  apply contains_spec.
  exists (normalize_path (nodetool_path self) +:+ "nodetool --host "
          +:+ host self +:+ " --port " +:+ Py.str_of_int (port self)
          +:+ " --username " +:+ u +:+ " "), (" " +:+ sub_command).
  by rewrite !app_assoc.
Qed.

Lemma password_single_quoted_witness :
  Py.contains "--password 'it's $HOME'"
    (snd (nodetool_cmd_line
            (mkNodeToolCmd "node1" 7199 (Some "it's $HOME") None
               (Some "cassandra") None) "verify")) = true.
Proof.
  apply (password_single_quoted
           (mkNodeToolCmd "node1" 7199 (Some "it's $HOME") None
              (Some "cassandra") None)
           "verify" "cassandra" "it's $HOME" eq_refl eq_refl eq_refl).
Defined.

(** C9. With a user name and neither password nor password file, the
    command line contains [--password 'None']: the flag is kept and
    carries the rendering of the unset value. *)
Theorem unset_password_renders_None
    (self : NodeToolCmd) (sub_command u : string) :
  username self = Some u → password_file self = None →
  password self = None →
  let cmd := snd (nodetool_cmd_line self sub_command) in
  Py.contains "--password 'None'" cmd = true
  ∧ cmd = normalize_path (nodetool_path self) +:+ "nodetool --host "
          +:+ host self +:+ " --port " +:+ Py.str_of_int (port self)
          +:+ " --username " +:+ u +:+ " --password 'None' "
          +:+ sub_command.
Proof.
  intros Hu Hf Hpw. cbn zeta.
  rewrite (cmd_line_password self sub_command u Hu Hf), Hpw.
  cbn [Py.format_opt]. split; [|reflexivity].
  apply contains_spec.
  exists (normalize_path (nodetool_path self) +:+ "nodetool --host "
          +:+ host self +:+ " --port " +:+ Py.str_of_int (port self)
          +:+ " --username " +:+ u +:+ " "), (" " +:+ sub_command).
  by rewrite !app_assoc.
Qed.

Lemma unset_password_renders_None_witness :
  snd (nodetool_cmd_line
         (mkNodeToolCmd "node1" 7199 None None (Some "cassandra") None)
         "verify")
  = "nodetool --host node1 --port 7199 --username cassandra --password 'None' verify".
Proof.
  apply (unset_password_renders_None
           (mkNodeToolCmd "node1" 7199 None None (Some "cassandra") None)
           "verify" "cassandra" eq_refl eq_refl eq_refl).
Defined.

End PasswordFlag.

Section NoUsername.

(** C10, as the code has it. Without a user name the command line is the
    prefix and the sub-command, whatever the password and the password
    file: the builder adds none of [--username], [--password] and
    [--password-file], and such a flag occurs in the command line exactly
    when the path, the host or the sub-command contains it. *)
Theorem no_username_no_credential_flags
    (self : NodeToolCmd) (sub_command flag : string) :
  username self = None →
  flag = "--username" ∨ flag = "--password" ∨ flag = "--password-file" →
  let cmd := snd (nodetool_cmd_line self sub_command) in
  cmd = normalize_path (nodetool_path self) +:+ "nodetool --host "
        +:+ host self +:+ " --port " +:+ Py.str_of_int (port self)
        +:+ " " +:+ sub_command
  ∧ Py.contains flag cmd
    = Py.contains flag (normalize_path (nodetool_path self))
      || Py.contains flag (host self) || Py.contains flag sub_command.
Proof.
  intros Hu Hflag. cbn zeta.
  assert (snd (nodetool_cmd_line self sub_command)
          = normalize_path (nodetool_path self) +:+ "nodetool --host "
            +:+ host self +:+ " --port " +:+ Py.str_of_int (port self)
            +:+ " " +:+ sub_command) as ->.
  { rewrite nodetool_cmd_line_eq. unfold auth_flags. by rewrite Hu. }
  split; [reflexivity|].
  destruct Hflag as [-> | [-> | ->]].
  - apply (contains_plain_cmd _ "u"); try reflexivity.
    apply normalize_path_cases.
  - apply (contains_plain_cmd _ "w"); try reflexivity.
    apply normalize_path_cases.
  - apply (contains_plain_cmd _ "w"); try reflexivity.
    apply normalize_path_cases.
Qed.

Lemma no_username_no_credential_flags_witness :
  Py.contains "--password"
    (snd (nodetool_cmd_line
            (mkNodeToolCmd "node1" 7199 (Some "secret")
               (Some "/etc/cassandra/jmx.pw") None (Some "/usr/bin"))
            "verify ks")) = false.
Proof.
  destruct (no_username_no_credential_flags
              (mkNodeToolCmd "node1" 7199 (Some "secret")
                 (Some "/etc/cassandra/jmx.pw") None (Some "/usr/bin"))
              "verify ks" "--password" eq_refl (or_intror (or_introl eq_refl)))
    as [_ Hflag].
  rewrite Hflag. reflexivity.
Defined.

(** C10 as stated fails: a keyspace is passed on as it is given, and one
    that reads like a flag puts that flag on the command line. *)
Lemma no_username_flag_from_keyspace :
  let params := Params.mk None 7199 (Some "secret") None None
                  (Some "--username") PyNone false None in
  Params.username params = None
  ∧ main_cmd_line "node1" params
    = Ok "nodetool --host node1 --port 7199 verify --username"
  ∧ Py.contains "--username"
      "nodetool --host node1 --port 7199 verify --username" = true.
Proof. repeat split. Qed.

End NoUsername.

(** * More on suffixes and trimming *)

Section Suffix.

Lemma length_app (s t : string) :
  String.length (s +:+ t) = (String.length s + String.length t)%nat.
Proof.
  induction s as [|c s IH]; [done|]. rewrite app_cons. cbn. by rewrite IH.
Qed.

Lemma substring_all (s : string) : String.substring 0 (String.length s) s = s.
Proof. induction s as [|c s IH]; [done|]. cbn. by rewrite IH. Qed.

Lemma substring_skip (pre s : string) (k : nat) :
  String.substring (String.length pre) k (pre +:+ s) = String.substring 0 k s.
Proof. induction pre as [|c pre IH]; [done|]. by rewrite app_cons. Qed.

Lemma substring_drop (m : nat) (s : string) :
  (m ≤ String.length s)%nat →
  ∃ pre, s = pre +:+ String.substring m (String.length s - m) s.
Proof.
  revert s. induction m as [|m IH]; intros s Hm.
  - exists "". by rewrite Nat.sub_0_r, substring_all.
  - destruct s as [|c s]; [cbn in Hm; lia|].
    destruct (IH s) as [pre Hpre]; [cbn in Hm; lia|].
    exists (String c pre). rewrite app_cons. cbn. by rewrite <-Hpre.
Qed.

(** [Py.endswith] is the suffix relation. *)
Lemma endswith_spec (s suffix : string) :
  Py.endswith s suffix = true ↔ ∃ pre, s = pre +:+ suffix.
Proof.
  unfold Py.endswith. split.
  - intros [Hk Heq]%andb_true_iff. apply Nat.leb_le in Hk.
    apply String.eqb_eq in Heq.
    destruct (substring_drop (String.length s - String.length suffix) s)
      as [pre Hpre]; [lia|].
    exists pre. rewrite <-Heq. rewrite Hpre at 1. do 2 f_equal. lia.
  - intros [pre ->]. rewrite length_app. apply andb_true_iff. split.
    + apply Nat.leb_le. lia.
    + replace (String.length pre + String.length suffix - String.length suffix)%nat
        with (String.length pre) by lia.
      rewrite substring_skip, substring_all. apply String.eqb_refl.
Qed.

Lemma app_char_inj (a b : string) (c : ascii) :
  a +:+ String c "" = b +:+ String c "" → a = b.
Proof.
  revert b. induction a as [|x a IH]; intros [|y b]; rewrite ?app_cons, ?app_nil_l.
  - done.
  - intros [= _ Hb]. by destruct b.
  - intros [= _ Ha]. by destruct a.
  - intros [= -> Hab]. f_equal. by apply IH.
Qed.

Lemma lstrip_all_space (s : string) : Py.lstrip s = "" ↔ all_space s = true.
Proof.
  induction s as [|c s IH]; [done|]. cbn [Py.lstrip all_space].
  destruct (Py.isspace c); [by rewrite IH|]. by split.
Qed.

Lemma rstrip_all_space (s : string) : Py.rstrip s = "" ↔ all_space s = true.
Proof.
  induction s as [|c s IH]; [done|]. cbn [Py.rstrip all_space].
  destruct (Py.rstrip s) as [|y r].
  - destruct IH as [IH _]. rewrite IH by done.
    destruct (Py.isspace c); by split.
  - split; [done|]. intros [_ Hs]%andb_true_iff. by apply IH in Hs.
Qed.

Lemma lstrip_no_space_head (s : string) :
  all_space (Py.lstrip s) = true → Py.lstrip s = "".
Proof.
  destruct (Py.lstrip s) as [|c u] eqn:Hs; [done|].
  apply lstrip_head in Hs. cbn [all_space]. by rewrite Hs.
Qed.

(** A stream is empty after trimming exactly when it is whitespace only. *)
Lemma strip_empty_iff (s : string) : Py.strip s = "" ↔ all_space s = true.
Proof.
  unfold Py.strip. rewrite rstrip_all_space. split.
  - intros Hs. by apply lstrip_all_space, lstrip_no_space_head.
  - intros Hs. apply lstrip_all_space in Hs. by rewrite Hs.
Qed.

Lemma lstrip_app_space (l s : string) :
  all_space l = true → Py.lstrip (l +:+ s) = Py.lstrip s.
Proof.
  induction l as [|c l IH]; [done|]. cbn [all_space].
  intros [Hc Hl]%andb_true_iff. rewrite app_cons. cbn [Py.lstrip].
  rewrite Hc. by apply IH.
Qed.

Lemma rstrip_app_space (s r : string) :
  all_space r = true → Py.rstrip (s +:+ r) = Py.rstrip s.
Proof.
  intros Hr. induction s as [|c s IH].
  - rewrite app_nil_l. by apply rstrip_all_space.
  - rewrite app_cons. cbn [Py.rstrip]. by rewrite IH.
Qed.

Lemma lstrip_app (s r : string) :
  Py.lstrip s ≠ "" → Py.lstrip (s +:+ r) = Py.lstrip s +:+ r.
Proof.
  induction s as [|c s IH]; [done|]. rewrite app_cons. cbn [Py.lstrip].
  destruct (Py.isspace c); [apply IH|]. by rewrite app_cons.
Qed.

(** Whitespace around a stream does not change what is left of it. *)
Lemma strip_padding (l s r : string) :
  all_space l = true → all_space r = true →
  Py.strip (l +:+ s +:+ r) = Py.strip s.
Proof.
  intros Hl Hr. unfold Py.strip. rewrite lstrip_app_space by done.
  destruct (Py.lstrip s) as [|c u] eqn:Hs.
  - apply lstrip_all_space in Hs.
    rewrite (lstrip_app_space s r Hs).
    apply lstrip_all_space in Hr. by rewrite Hr.
  - rewrite lstrip_app by (by rewrite Hs). rewrite Hs.
    by apply rstrip_app_space.
Qed.

End Suffix.

(** * The sub-command for every kind of table value *)

Section Tables.

Lemma str_items_all_str (items : list py_value) :
  all_str items = true → ∃ names, Py.str_items items = Ok names.
Proof.
  induction items as [|v items IH]; [by exists []|].
  destruct v; try done. cbn [all_str Py.str_items]. intros Hs.
  destruct (IH Hs) as [names ->]. by eexists.
Qed.

Lemma str_items_not_all_str (items : list py_value) :
  all_str items = false → Py.str_items items = Raise TypeError.
Proof.
  induction items as [|v items IH]; [done|].
  destruct v; try done. cbn [all_str Py.str_items]. intros Hs.
  by rewrite (IH Hs).
Qed.

Lemma with_table_raises_iff (t : py_value) (cmd0 : string) (e : py_exn) :
  with_table t cmd0 = Raise e ↔ ∃ items, t = PyList items ∧ all_str items = false.
Proof.
  split.
  - destruct t as [| | | |items]; try done. unfold with_table, Py.join.
    destruct (all_str items) eqn:Hs; [|by exists items].
    by destruct (str_items_all_str items Hs) as [names ->].
  - intros (items & -> & Hs). unfold with_table, Py.join.
    rewrite (str_items_not_all_str items Hs). by destruct e.
Qed.

Lemma init_raises_iff (fq : string) (params : Params.t) (cmd0 : string)
    (e : py_exn) :
  NodeToolCommand_init fq params cmd0 = Raise e
  ↔ ∃ items, Params.table params = PyList items ∧ all_str items = false.
Proof.
  rewrite <-(with_table_raises_iff (Params.table params)
               (with_keyspace (Params.keyspace params)
                  (with_extended (Params.extended params) cmd0)) e).
  unfold NodeToolCommand_init.
  destruct (with_table _ _); cbn [mbind res_bind]; split; intros [=]; by subst.
Qed.

Lemma endswith_app_l (a b suffix : string) :
  Py.endswith b suffix = true → Py.endswith (a +:+ b) suffix = true.
Proof.
  intros [pre ->]%endswith_spec. apply endswith_spec.
  exists (a +:+ pre). by rewrite app_assoc.
Qed.

(** X1. The table names of a list of any length are appended joined by single
    spaces, in the order of the list, after the flag for extended
    verification and the keyspace. *)
Theorem table_names_space_joined
    (fq : string) (params : Params.t) (cmd0 : string) (names : list string) :
  Params.table params = PyList (PyStr <$> names) →
  ∃ n, NodeToolCommand_init fq params cmd0 = Ok n
       ∧ cmd n
         = with_keyspace (Params.keyspace params)
             (with_extended (Params.extended params) cmd0)
           +:+ " " +:+ String.concat " " names.
Proof.
  intros Ht. unfold NodeToolCommand_init. rewrite Ht, with_table_names.
  cbn [mbind res_bind]. by eexists.
Qed.

Lemma table_names_space_joined_witness :
  ∃ n, NodeToolCommand_init "node1"
         (Params.mk None 7199 None None None (Some "ks")
            (PyList [PyStr "t1"; PyStr "t2"; PyStr "t3"; PyStr "t4"]) true None)
         "verify" = Ok n
       ∧ cmd n = "verify -e ks t1 t2 t3 t4".
Proof.
  exact (table_names_space_joined "node1"
           (Params.mk None 7199 None None None (Some "ks")
              (PyList [PyStr "t1"; PyStr "t2"; PyStr "t3"; PyStr "t4"]) true None)
           "verify" ["t1"; "t2"; "t3"; "t4"] eq_refl).
Defined.

(** X2. A table given as one string and a table given as the list of that one
    string lead to the same sub-command: the name after one space. *)
Theorem table_str_as_singleton
    (fq : string) (h : option string) (po : Z) (pw pf u ks : option string)
    (e : bool) (path : option string) (cmd0 name : string) :
  ∃ n1 n2,
    NodeToolCommand_init fq (Params.mk h po pw pf u ks (PyStr name) e path) cmd0
    = Ok n1
    ∧ NodeToolCommand_init fq
        (Params.mk h po pw pf u ks (PyList [PyStr name]) e path) cmd0
      = Ok n2
    ∧ cmd n1 = cmd n2
    ∧ cmd n1 = with_keyspace ks (with_extended e cmd0) +:+ " " +:+ name.
Proof. do 2 eexists. repeat split. Qed.

(** X3. An empty list of tables is not the same as no table: the sub-command,
    and with it the command line, then ends in a space. *)
Theorem empty_table_list_trailing_space (fq : string) (params : Params.t) :
  Params.table params = PyList [] →
  ∃ c, main_cmd_line fq params = Ok c ∧ Py.endswith c " " = true.
Proof.
  intros Ht. unfold main_cmd_line, NodeToolCommand_init. rewrite Ht.
  cbn [with_table Py.join Py.str_items mbind res_bind String.concat cmd super].
  eexists. split; [reflexivity|].
  rewrite nodetool_cmd_line_eq. do 8 apply endswith_app_l. reflexivity.
Qed.

Lemma empty_table_list_trailing_space_witness :
  ∃ c, main_cmd_line "node1"
         (Params.mk None 7199 None None None (Some "ks") (PyList []) false None)
       = Ok c
       ∧ Py.endswith c " " = true.
Proof.
  exact (empty_table_list_trailing_space "node1"
           (Params.mk None 7199 None None None (Some "ks") (PyList []) false None)
           eq_refl).
Defined.

(** X4. The sub-command always begins with the command it was created for, and
    with the flag for extended verification right after it when that is
    asked for: keyspace and tables only follow. *)
Theorem sub_command_begins_with_cmd
    (fq : string) (params : Params.t) (cmd0 : string) (n : NodeToolCommand) :
  NodeToolCommand_init fq params cmd0 = Ok n →
  String.prefix cmd0 (cmd n) = true
  ∧ (Params.extended params = true →
     String.prefix (cmd0 +:+ " -e") (cmd n) = true).
Proof.
  unfold NodeToolCommand_init. intros Hn.
  assert (∃ rest, cmd n = with_extended (Params.extended params) cmd0 +:+ rest)
    as [rest Hrest].
  { destruct (with_table _ _) as [c|] eqn:Hc; [|done].
    cbn [mbind res_bind] in Hn. injection Hn as <-. cbn [cmd].
    assert (∃ r, with_keyspace (Params.keyspace params)
                   (with_extended (Params.extended params) cmd0)
                 = with_extended (Params.extended params) cmd0 +:+ r)
      as [r Hr].
    { unfold with_keyspace. destruct (Params.keyspace params).
      - by eexists.
      - exists "". by rewrite app_nil_r. }
    rewrite Hr in Hc. unfold with_table in Hc.
    destruct (Params.table params) as [| | |name|items].
    - injection Hc as <-. by eexists.
    - injection Hc as <-. by eexists.
    - injection Hc as <-. by eexists.
    - injection Hc as <-. eexists. by rewrite app_assoc.
    - destruct (Py.join " " items) as [j|]; [|done].
      cbn [mbind res_bind] in Hc. injection Hc as <-.
      eexists. by rewrite app_assoc. }
  rewrite Hrest. split.
  - unfold with_extended. destruct (Params.extended params).
    + rewrite app_assoc. apply prefix_self_app.
    + apply prefix_self_app.
  - intros ->. apply prefix_self_app.
Qed.

Lemma sub_command_begins_with_cmd_witness :
  String.prefix "verify -e"
    (cmd (mkNodeToolCommand
            (NodeToolCmd_init "node1"
               (Params.mk None 7199 None None None (Some "ks") (PyStr "t1")
                  true None))
            (Some "ks") (PyStr "t1") true "verify -e ks t1")) = true.
Proof.
  destruct (sub_command_begins_with_cmd "node1"
              (Params.mk None 7199 None None None (Some "ks") (PyStr "t1") true
                 None)
              "verify"
              (mkNodeToolCommand
                 (NodeToolCmd_init "node1"
                    (Params.mk None 7199 None None None (Some "ks") (PyStr "t1")
                       true None))
                 (Some "ks") (PyStr "t1") true "verify -e ks t1")
              eq_refl) as [_ Hext].
  exact (Hext eq_refl).
Defined.

End Tables.

(** * The whole run *)

Section Run.

(** X5. [main] raises, and reports nothing, exactly when the table parameter is
    a list with an item that is not a string; the exception comes before
    any command is run, so it is the same whatever the command would
    return. *)
Theorem main_raises_iff
    (fq : string) (run : string → Z * string * string) (params : Params.t) :
  (main fq run params = Raise TypeError
   ↔ ∃ items, Params.table params = PyList items ∧ all_str items = false)
  ∧ (main fq run params = Raise TypeError
     ↔ main_cmd_line fq params = Raise TypeError).
Proof.
  rewrite main_unfold, <-(init_raises_iff fq params "verify" TypeError).
  unfold main_cmd_line.
  destruct (NodeToolCommand_init fq params "verify") as [n|[]];
    cbn [mbind res_bind]; [|done].
  destruct (run _) as [[rc out] err]. by split; split.
Qed.

Lemma main_result_changed (rc : Z) (out err : string) :
  main_result rc out err !! "changed" = Some (PyBool (rc =? 0)).
Proof.
  unfold main_result.
  destruct (rc =? 0), (Py.truthy (Py.strip out)), (Py.truthy (Py.strip err));
    by simplify_map_eq.
Qed.

Lemma main_result_stdout (rc : Z) (out err : string) :
  main_result rc out err !! "stdout"
  = if Py.truthy (Py.strip out) then Some (PyStr (Py.strip out)) else None.
Proof.
  unfold main_result.
  destruct (rc =? 0), (Py.truthy (Py.strip out)), (Py.truthy (Py.strip err));
    by simplify_map_eq.
Qed.

Lemma main_result_stderr (rc : Z) (out err : string) :
  main_result rc out err !! "stderr"
  = if Py.truthy (Py.strip err) then Some (PyStr (Py.strip err)) else None.
Proof.
  unfold main_result.
  destruct (rc =? 0), (Py.truthy (Py.strip out)), (Py.truthy (Py.strip err));
    by simplify_map_eq.
Qed.

(** X6. When the sub-command can be built, [main] reports the outcome of the
    command line it built: [changed] is true exactly when running that very
    command line returned 0. *)
Theorem main_reports_outcome
    (fq : string) (run : string → Z * string * string) (params : Params.t)
    (c : string) :
  main_cmd_line fq params = Ok c →
  ∃ result,
    main fq run params = Ok result
    ∧ result = main_result (run c).1.1 (run c).1.2 (run c).2
    ∧ (result !! "changed" = Some (PyBool true) ↔ (run c).1.1 = 0).
Proof.
  rewrite main_unfold. unfold main_cmd_line.
  destruct (NodeToolCommand_init fq params "verify") as [n|]; [|done].
  cbn [mbind res_bind]. intros [= <-].
  destruct (run _) as [[rc out] err]. cbn [fst snd].
  eexists. split; [reflexivity|]. split; [reflexivity|].
  rewrite main_result_changed. destruct (Z.eqb_spec rc 0); by split.
Qed.

Lemma main_reports_outcome_witness :
  main "node1" (λ c, (if String.eqb c "nodetool --host node1 --port 7199 verify"
                      then 0 else 1, " OK ", ""))
    (Params.mk None 7199 None None None None PyNone false None)
  = Ok (main_result 0 " OK " "").
Proof.
  destruct (main_reports_outcome "node1"
              (λ c, (if String.eqb c "nodetool --host node1 --port 7199 verify"
                     then 0 else 1, " OK ", ""))
              (Params.mk None 7199 None None None None PyNone false None)
              "nodetool --host node1 --port 7199 verify" eq_refl)
    as (result & Hmain & -> & _).
  exact Hmain.
Defined.

(** X7. The reported dictionary has the keys [changed] and [msg] and, besides
    them, at most [stdout], [stderr] and [rc]: no other key is ever
    reported. *)
Theorem main_result_keys (rc : Z) (out err : string) :
  ({["changed"; "msg"]} : gset string) ⊆ dom (main_result rc out err)
  ∧ dom (main_result rc out err)
    ⊆ ({["changed"; "msg"; "stdout"; "stderr"; "rc"]} : gset string).
Proof.
  unfold main_result.
  destruct (rc =? 0), (Py.truthy (Py.strip out)), (Py.truthy (Py.strip err));
    rewrite ?dom_insert_L, dom_empty_L; split; intros x; set_unfold; tauto.
Qed.

(** X8. A stream is left out of the report exactly when it holds nothing but
    whitespace. *)
Theorem stream_absent_iff_whitespace (rc : Z) (out err : string) :
  (main_result rc out err !! "stdout" = None ↔ all_space out = true)
  ∧ (main_result rc out err !! "stderr" = None ↔ all_space err = true).
Proof.
  rewrite main_result_stdout, main_result_stderr, <-!strip_empty_iff.
  split.
  - by destruct (Py.strip out).
  - by destruct (Py.strip err).
Qed.

(** X9. Whitespace before and after the captured streams does not change the
    report. *)
Theorem main_result_padding (rc : Z) (out err l1 r1 l2 r2 : string) :
  all_space l1 = true → all_space r1 = true →
  all_space l2 = true → all_space r2 = true →
  main_result rc (l1 +:+ out +:+ r1) (l2 +:+ err +:+ r2)
  = main_result rc out err.
Proof.
  intros Hl1 Hr1 Hl2 Hr2. unfold main_result.
  by rewrite !strip_padding.
Qed.

Lemma main_result_padding_witness :
  main_result 1 ("  " +:+ "" +:+ " ") (" " +:+ "corrupt sstable" +:+ "  ")
  = main_result 1 "" "corrupt sstable".
Proof.
  apply (main_result_padding 1 "" "corrupt sstable" "  " " " " " "  ");
    reflexivity.
Defined.

End Run.

(** * The path prefix, once more *)

Section PathState.

(** X10. The prefix put before the binary is either empty or the given path
    followed by one separator, and it never ends in two separators. *)
Theorem normalize_path_shape (path : option string) :
  normalize_path path = ""
  ∨ ∃ p, path = Some p
         ∧ normalize_path path = p +:+ "/"
         ∧ Py.endswith (normalize_path path) "//" = false.
Proof.
  destruct path as [p|]; [|by left]. unfold normalize_path.
  destruct (_ && _) eqn:Hp; [right|by left].
  exists p. split; [done|]. split; [done|].
  apply andb_true_iff in Hp as [_ He]. apply negb_true_iff in He.
  apply not_true_is_false. intros [pre Hpre]%endswith_spec.
  change "//" with ("/" +:+ "/") in Hpre. rewrite <-app_assoc in Hpre.
  apply app_char_inj in Hpre.
  assert (Py.endswith p "/" = true) by (apply endswith_spec; by exists pre).
  congruence.
Qed.

(** X11. [nodetool_cmd] overwrites the path of the object, so a second command
    built from the same object never has a path before the binary,
    whatever the path was; host, port and credentials are as before. *)
Theorem second_call_drops_path (self : NodeToolCmd) (s1 s2 : string) :
  snd (nodetool_cmd_line (fst (nodetool_cmd_line self s1)) s2)
  = "nodetool --host " +:+ host self +:+ " --port "
    +:+ Py.str_of_int (port self) +:+ auth_flags self +:+ " " +:+ s2.
Proof.
  rewrite nodetool_cmd_line_eq, nodetool_cmd_line_path.
  assert (normalize_path (Some (normalize_path (nodetool_path self))) = "")
    as ->.
  { destruct (normalize_path_cases (nodetool_path self)) as [->|[p ->]];
      [done|]. apply normalize_path_terminated, endswith_app_slash. }
  reflexivity.
Qed.

Lemma open_path_gets_separator_witness :
  snd (nodetool_cmd_line
         (mkNodeToolCmd "node1" 7199 None None None (Some "/opt/cassandra/bin"))
         "verify")
  = "/opt/cassandra/bin/nodetool --host node1 --port 7199 verify".
Proof.
  apply (open_path_gets_separator
           (mkNodeToolCmd "node1" 7199 None None None
              (Some "/opt/cassandra/bin"))
           "verify" "/opt/cassandra/bin" eq_refl); [discriminate|reflexivity].
Defined.

Lemma terminated_path_dropped_witness :
  snd (nodetool_cmd_line
         (mkNodeToolCmd "node1" 7199 None None None (Some "/opt/cassandra/bin/"))
         "verify")
  = "nodetool --host node1 --port 7199 verify".
Proof.
  apply (terminated_path_dropped
           (mkNodeToolCmd "node1" 7199 None None None
              (Some "/opt/cassandra/bin/"))
           "verify" "/opt/cassandra/bin/" eq_refl eq_refl).
Defined.

(** X14. Credentials that are not used do not reach the command line: without a
    user name it is the same for every password and password file, and
    with a password file it is the same for every password. *)
Theorem credentials_unused
    (h : string) (po : Z) (path : option string) (sub_command : string) :
  (∀ pw pf pw' pf',
     snd (nodetool_cmd_line (mkNodeToolCmd h po pw pf None path) sub_command)
     = snd (nodetool_cmd_line (mkNodeToolCmd h po pw' pf' None path)
              sub_command))
  ∧ (∀ u f pw pw',
       snd (nodetool_cmd_line (mkNodeToolCmd h po pw (Some f) u path)
              sub_command)
       = snd (nodetool_cmd_line (mkNodeToolCmd h po pw' (Some f) u path)
                sub_command)).
Proof.
  split.
  - intros pw pf pw' pf'. by rewrite !nodetool_cmd_line_eq.
  - intros u f pw pw'. rewrite !nodetool_cmd_line_eq.
    unfold auth_flags. cbn [username password_file password host port
      nodetool_path]. by destruct u.
Qed.

End PathState.
